(** * Sliding-window text generator of [datasets_example.ipynb]

    The notebook reads a corpus into the global [dataset_text], defines
    [generate_generator(length)], whose inner generator [generate_text]
    yields [dataset_text[start_index:start_index + length]] for
    successive values of [start_index], and builds one [tf.data] pipeline
    per curriculum phase.  This development embeds the Python (2.7)
    semantics of those cells: integers are unbounded ([Z]), [str] is a
    sequence of characters, a generator is a suspended frame advanced by
    [next], and the [tf.data] pipeline is the term the notebook builds. *)

From stdpp Require Import base numbers list list_numbers strings.
From Stdlib Require Import Ascii.

Local Open Scope Z_scope.

(** ** Python values and builtins *)

(** A Python 2 [str]: a sequence of one-byte characters. *)
Abbreviation pystr := (list ascii).

(** The values the parameter [length] may be bound to at run time. *)
Inductive pyval : Type :=
  | PyInt (n : Z)
  | PyStr (s : pystr)
  | PyNone.

Inductive pyexn : Type :=
  | TypeError.

(** Result of evaluating an expression: a value or a raised exception. *)
Inductive result (A : Type) : Type :=
  | Ok (a : A)
  | Raise (e : pyexn).
Arguments Ok {A} a.
Arguments Raise {A} e.

Definition bind {A B : Type} (r : result A) (k : A -> result B) : result B :=
  match r with
  | Ok a => k a
  | Raise e => Raise e
  end.

Notation "'let!' x ':=' r 'in' k" := (bind r (fun x => k))
  (at level 10, x name, r at level 100, k at level 200).

Module Py.

(** [len(s)] *)
Definition len (s : pystr) : Z := Z.of_nat (length s).

(** [a - b] with an int on the left: defined for an int on the right only. *)
Definition sub (a : Z) (b : pyval) : result Z :=
  match b with
  | PyInt n => Ok (a - n)
  | _ => Raise TypeError
  end.

(** [a + b] with an int on the left. *)
Definition add (a : Z) (b : pyval) : result Z :=
  match b with
  | PyInt n => Ok (a + n)
  | _ => Raise TypeError
  end.

(** A slice bound is taken relative to the end when negative, then
    clipped to [0 .. n]. *)
Definition slice_index (n i : Z) : Z :=
  let i := if i <? 0 then i + n else i in
  if i <? 0 then 0 else if n <? i then n else i.

(** [s[i:j]]: never raises for int bounds; empty when the clipped bounds
    cross. *)
Definition getslice (s : pystr) (i j : Z) : pystr :=
  let lo := slice_index (len s) i in
  let hi := slice_index (len s) j in
  if hi <? lo then [] else take (Z.to_nat (hi - lo)) (drop (Z.to_nat lo) s).

(** [range(a, b)] *)
Definition range (a b : Z) : list Z := seqZ a (b - a).

End Py.

(** ** The generator *)

(** The function object returned by [generate_generator]: the inner
    [generate_text] together with the captured [length]. *)
Record closure : Type := Closure { captured_length : pyval }.

Definition generate_generator (length : pyval) : closure :=
  {| captured_length := length |}.

(** Where a generator's frame stands: not started, suspended at the
    [yield] with its local [start_index], or finished. *)
Inductive frame : Type :=
  | Created
  | Suspended (start_index : Z)
  | Finished.

Record generator : Type := Generator { gi_code : closure; gi_frame : frame }.

(** What a call of [next] delivers. *)
Inductive event : Type :=
  | Yield (w : pystr)
  | StopIteration
  | Raised (e : pyexn).

(** How iterating a generator to its end finishes. *)
Inductive ending : Type :=
  | Exhausted
  | Failed (e : pyexn).

Section Corpus.

(** The module-level global read by [generate_text]. *)
Variable dataset_text : pystr.

(** Calling the closure creates a generator; no code of the body runs. *)
Definition generate_text (f : closure) : generator :=
  {| gi_code := f; gi_frame := Created |}.

(** One evaluation of the loop at the [while] test with the given
    [start_index]: test, then either yield the slice and suspend, or fall
    off the end of the function. *)
Definition loop_head (length : pyval) (start_index : Z) : event * frame :=
  match let! bound := Py.sub (Py.len dataset_text) length in
        if start_index <? bound
        then let! stop := Py.add start_index length in
             Ok (Some (Py.getslice dataset_text start_index stop))
        else Ok None
  with
  | Ok (Some w) => (Yield w, Suspended start_index)
  | Ok None => (StopIteration, Finished)
  | Raise e => (Raised e, Finished)
  end.

(** [g.next()] *)
Definition next (g : generator) : event * generator :=
  let length := captured_length (gi_code g) in
  let '(ev, fr) :=
    match gi_frame g with
    | Created => loop_head length 0
    | Suspended start_index => loop_head length (start_index + 1)
    | Finished => (StopIteration, Finished)
    end in
  (ev, {| gi_code := gi_code g; gi_frame := fr |}).

(** Iterating the generator until it stops, collecting what it yields
    ([None]: the fuel ran out first). *)
Fixpoint drain (fuel : nat) (g : generator) : option (list pystr * ending) :=
  match fuel with
  | O => None
  | S fuel =>
      match next g with
      | (Yield w, g') =>
          match drain fuel g' with
          | Some (ws, e) => Some (w :: ws, e)
          | None => None
          end
      | (StopIteration, _) => Some ([], Exhausted)
      | (Raised e, _) => Some ([], Failed e)
      end
  end.

(** States a fresh generator of [f] can be in. *)
Inductive reachable (f : closure) : generator -> Prop :=
  | reach_fresh : reachable f (generate_text f)
  | reach_next g ev g' :
      reachable f g -> next g = (ev, g') -> reachable f g'.

(** The generator of [f] yields [w] with its local [start_index] at [s]. *)
Definition yields_at (f : closure) (s : Z) (w : pystr) : Prop :=
  exists g, reachable f g /\
    next g = (Yield w, {| gi_code := f; gi_frame := Suspended s |}).

(** A complete run: the windows yielded up to [StopIteration]. *)
Inductive runs : generator -> list pystr -> Prop :=
  | runs_stop g g' : next g = (StopIteration, g') -> runs g []
  | runs_yield g w g' ws :
      next g = (Yield w, g') -> runs g' ws -> runs g (w :: ws).

(** The spec's invariant on the data model, read on a frame. *)
Definition invariant (length : Z) (fr : frame) : Prop :=
  match fr with
  | Suspended start_index =>
      0 <= start_index < Py.len dataset_text - length
  | _ => True
  end.

(** The window of length [length] that starts at offset [s]. *)
Definition window (length s : Z) : pystr :=
  Py.getslice dataset_text s (s + length).

(** The loop as a comprehension:
    [[dataset_text[s:s + length] for s in range(0, len(dataset_text) - length)]]. *)
Definition all_windows (length : Z) : list pystr :=
  window length <$> Py.range 0 (Py.len dataset_text - length).

(** [w] occurs in the corpus as a contiguous run of characters. *)
Definition substring (w : pystr) : Prop :=
  exists before after, dataset_text = before ++ w ++ after.

End Corpus.

(** The value [start_index] has at the next [while] test of a frame. *)
Definition resume (fr : frame) : option Z :=
  match fr with
  | Created => Some 0
  | Suspended start_index => Some (start_index + 1)
  | Finished => None
  end.

(** [generate_generator(L)()]: a fresh generator for the integer window
    length [L]. *)
Definition fresh (L : Z) : generator :=
  generate_text (generate_generator (PyInt L)).

Definition text (s : string) : pystr := String.list_ascii_of_string s.

(** ** The [tf.data] pipelines

    The framework is external: a dataset is the term the notebook builds,
    a source and the transformations applied to it. *)

Inductive dtype : Type :=
  | tf_string
  | tf_int8.

(** [lambda t: tf.decode_raw(t, out_type)] *)
Inductive map_func : Type :=
  | decode_raw (out_type : dtype).

Inductive Dataset : Type :=
  | from_generator (generator : closure) (output_types : dtype)
  | ds_map (d : Dataset) (f : map_func)
  | ds_shuffle (d : Dataset) (buffer_size : Z) (reshuffle_each_iteration : bool)
  | ds_repeat (d : Dataset) (count : Z)
  | ds_batch (d : Dataset) (batch_size : Z).

Definition MAX_LENGTH : Z := 32.
Definition BATCH_SIZE : Z := 2.
Definition EPOCHS : Z := 20.

(** The element expression of the list comprehension that builds [datasets]. *)
Definition phase_dataset (length : Z) : Dataset :=
  ds_batch
    (ds_repeat
       (ds_shuffle
          (ds_map
             (from_generator (generate_generator (PyInt length)) tf_string)
             (decode_raw tf_int8))
          1000 true)
       EPOCHS)
    BATCH_SIZE.

Definition datasets : list Dataset :=
  phase_dataset <$> Py.range 1 (MAX_LENGTH + 1).

(** The generator function a dataset wraps. *)
Fixpoint source (d : Dataset) : closure :=
  match d with
  | from_generator g _ => g
  | ds_map d _ | ds_shuffle d _ _ | ds_repeat d _ | ds_batch d _ => source d
  end.

(** Whether a shuffle stage occurs in a pipeline. *)
Fixpoint shuffled (d : Dataset) : bool :=
  match d with
  | from_generator _ _ => false
  | ds_shuffle _ _ _ => true
  | ds_map d _ | ds_repeat d _ | ds_batch d _ => shuffled d
  end.

(** The part of a pipeline that feeds its outermost shuffle stage. *)
Fixpoint before_shuffle (d : Dataset) : option Dataset :=
  match d with
  | from_generator _ _ => None
  | ds_shuffle d _ _ => Some d
  | ds_map d _ | ds_repeat d _ | ds_batch d _ => before_shuffle d
  end.

(** ** Reading the corpus

    [dataset_text = '\n'.join(f.readlines())] *)

Definition newline : ascii := "010"%char.

(** [f.readlines()] for a file holding [content]: its lines in order, each
    with its terminating newline; a last line without one is kept as it
    is. *)
Fixpoint readlines (content : pystr) : list pystr :=
  match content with
  | [] => []
  | c :: rest =>
      if Ascii.eqb c newline then [c] :: readlines rest
      else match readlines rest with
           | [] => [[c]]
           | l :: ls => (c :: l) :: ls
           end
  end.

(** [sep.join(lines)] *)
Fixpoint join (sep : pystr) (lines : list pystr) : pystr :=
  match lines with
  | [] => []
  | l :: ls =>
      match ls with
      | [] => l
      | _ :: _ => l ++ sep ++ join sep ls
      end
  end.

(** The corpus the second cell builds from the file. *)
Definition dataset_text_of (content : pystr) : pystr :=
  join [newline] (readlines content).

(** [content] with every newline that has text after it written twice. *)
Fixpoint double_breaks (content : pystr) : pystr :=
  match content with
  | [] => []
  | c :: rest =>
      if Ascii.eqb c newline
      then match rest with
           | [] => [c]
           | _ :: _ => c :: c :: double_breaks rest
           end
      else c :: double_breaks rest
  end.

(** ** Iterators, handles and the printed examples *)

(** [l[i]] on a list: a negative index counts from the end ([None]:
    [IndexError]). *)
Definition getitem {A : Type} (l : list A) (i : Z) : option A :=
  let n := Z.of_nat (length l) in
  let i := if i <? 0 then i + n else i in
  if (i <? 0) || (n <=? i) then None else l !! Z.to_nat i.

Inductive Iterator : Type :=
  | make_one_shot_iterator (d : Dataset).

(** The value of [iterator.string_handle()]: a token naming the iterator. *)
Inductive Handle : Type :=
  | string_handle (it : Iterator).

Definition iterators : list Iterator :=
  make_one_shot_iterator <$> datasets.

Definition handles : list Handle :=
  string_handle <$> iterators.

(** The handle fed to the placeholder: [handles[phase - 1]]. *)
Definition fed_handle (phase : Z) : option Handle :=
  getitem handles (phase - 1).

(** One byte read as a signed 8-bit number. *)
Definition int8_of_byte (c : ascii) : Z :=
  let b := Z.of_nat (nat_of_ascii c) in
  if b <? 128 then b else b - 256.

(** [tf.decode_raw(t, tf.int8)] *)
Definition decode_raw_int8 (t : pystr) : list Z :=
  int8_of_byte <$> t.

(** [chr(i)] ([None]: [ValueError], [i] is not in [range(256)]). *)
Definition chr (i : Z) : option ascii :=
  if (0 <=? i) && (i <? 256) then Some (ascii_of_nat (Z.to_nat i)) else None.

(** [''.join(map(chr, example))] *)
Definition join_chr (example : list Z) : option pystr :=
  mapM chr example.

(** ** Repeated calls of [next()] *)

(** The generator after [k] calls of [next()] on it, the corpus staying
    what it is. *)
Fixpoint advance (dataset_text : pystr) (k : nat) (g : generator) : generator :=
  match k with
  | O => g
  | S k => advance dataset_text k (next dataset_text g).2
  end.

(** What the call number [k] (counting from 0) of [next()] delivers. *)
Definition nth_next (dataset_text : pystr) (k : nat) (g : generator) : event :=
  (next dataset_text (advance dataset_text k g)).1.

(** ** Sample runs *)


Example first_windows :
  drain (text "abcde") 10 (generate_text (generate_generator (PyInt 2)))
  = Some ([text "ab"; text "bc"; text "cd"], Exhausted).
Proof. reflexivity. Qed.

Example negative_length :
  drain (text "ab") 10 (generate_text (generate_generator (PyInt (-1))))
  = Some ([text "a"; text ""; text ""], Exhausted).
Proof. reflexivity. Qed.

Example none_length :
  drain (text "ab") 10 (generate_text (generate_generator PyNone))
  = Some ([], Failed TypeError).
Proof. reflexivity. Qed.

Example phase_count : length datasets = 32%nat.
Proof. reflexivity. Qed.

(** ** Slices *)

Section Slices.

Variable s : pystr.

Lemma slice_index_inside (n i : Z) :
  0 <= i <= n -> Py.slice_index n i = i.
Proof.
  intros Hi. unfold Py.slice_index. cbv zeta.
  rewrite !(proj2 (Z.ltb_ge i 0)) by lia.
  rewrite (proj2 (Z.ltb_ge n i)) by lia. reflexivity.
Qed.

Lemma getslice_inside (i j : Z) :
  0 <= i -> i <= j -> j <= Py.len s ->
  Py.getslice s i j = take (Z.to_nat (j - i)) (drop (Z.to_nat i) s).
Proof.
  intros Hi Hij Hj. unfold Py.getslice.
  rewrite !slice_index_inside by lia.
  destruct (Z.ltb_spec j i); [lia | reflexivity].
Qed.

Lemma getslice_inside_length (i j : Z) :
  0 <= i -> i <= j -> j <= Py.len s ->
  Py.len (Py.getslice s i j) = j - i.
Proof.
  intros Hi Hij Hj. rewrite getslice_inside by done.
  unfold Py.len in *. rewrite length_take, length_drop. lia.
Qed.

Lemma getslice_substring (i j : Z) :
  0 <= i -> i <= j -> j <= Py.len s ->
  s = take (Z.to_nat i) s ++ Py.getslice s i j ++ drop (Z.to_nat j) s.
Proof.
  intros Hi Hij Hj. rewrite getslice_inside by done.
  replace (Z.to_nat j) with (Z.to_nat i + Z.to_nat (j - i))%nat by lia.
  rewrite <- drop_drop, take_drop, take_drop. reflexivity.
Qed.

Lemma getslice_lookup (i j : Z) (k : nat) (c : ascii) :
  0 <= i -> i <= j -> j <= Py.len s ->
  Py.getslice s i j !! k = Some c ->
  s !! (Z.to_nat i + k)%nat = Some c /\ i + Z.of_nat k < j.
Proof.
  intros Hi Hij Hj. rewrite getslice_inside by done.
  intros Hk. apply lookup_take_Some in Hk as [Hk Hlt].
  rewrite lookup_drop in Hk. split; [done | lia].
Qed.

End Slices.

(** ** The generator with an integer window length *)

Section Windowing.

Variable dataset_text : pystr.
Variable L : Z.

Local Abbreviation n := (Py.len dataset_text).
Local Abbreviation f := (generate_generator (PyInt L)).

Lemma loop_head_int (s : Z) :
  loop_head dataset_text (PyInt L) s =
  if s <? n - L
  then (Yield (window dataset_text L s), Suspended s)
  else (StopIteration, Finished).
Proof.
  unfold loop_head, window. simpl. destruct (s <? n - L); reflexivity.
Qed.

Lemma next_resume (g : generator) (s : Z) :
  gi_code g = f -> resume (gi_frame g) = Some s ->
  next dataset_text g =
  if s <? n - L
  then (Yield (window dataset_text L s), Generator f (Suspended s))
  else (StopIteration, Generator f Finished).
Proof.
  destruct g as [c fr]. simpl. intros -> Hr. unfold next. simpl.
  destruct fr as [|s0|]; simplify_eq/=; rewrite loop_head_int;
    destruct (_ <? _); reflexivity.
Qed.

Lemma next_finished (g : generator) :
  gi_code g = f -> gi_frame g = Finished ->
  next dataset_text g = (StopIteration, Generator f Finished).
Proof. destruct g as [c fr]. simpl. intros -> ->. reflexivity. Qed.

(** Enough fuel drains the generator from any point of the loop. *)
Lemma drain_resume (k : nat) :
  forall (s : Z) (fuel : nat) (g : generator),
    gi_code g = f -> resume (gi_frame g) = Some s ->
    Z.to_nat (n - L - s) = k -> (k < fuel)%nat ->
    drain dataset_text fuel g =
    Some (window dataset_text L <$> seqZ s (n - L - s), Exhausted).
Proof.
  induction k as [|k IH]; intros s fuel g Hc Hr Hk Hfuel;
    (destruct fuel as [|fuel]; [lia |]); simpl;
    rewrite (next_resume g s Hc Hr);
    destruct (Z.ltb_spec s (n - L)) as [Hlt | Hge]; try lia.
  - rewrite seqZ_nil by lia. reflexivity.
  - rewrite (IH (s + 1) fuel) by (simpl; (reflexivity || lia)).
    rewrite (seqZ_cons s) by lia. simpl.
    replace (Z.succ s) with (s + 1) by lia.
    replace (Z.pred (n - L - s)) with (n - L - (s + 1)) by lia.
    reflexivity.
Qed.

Lemma drain_fresh (fuel : nat) :
  (Z.to_nat (n - L) < fuel)%nat ->
  drain dataset_text fuel (fresh L) =
  Some (all_windows dataset_text L, Exhausted).
Proof.
  intros Hfuel. unfold all_windows, Py.range.
  apply (drain_resume (Z.to_nat (n - L - 0))); simpl; (reflexivity || lia).
Qed.

(** More fuel never changes a result. *)
Lemma drain_mono (fuel fuel' : nat) (g : generator) r :
  drain dataset_text fuel g = Some r -> (fuel <= fuel')%nat ->
  drain dataset_text fuel' g = Some r.
Proof.
  revert fuel' g r. induction fuel as [|fuel IH]; intros fuel' g r; [done |].
  destruct fuel' as [|fuel']; [lia |]. simpl.
  destruct (next dataset_text g) as [[w | | e] g']; try done.
  destruct (drain dataset_text fuel g') as [[ws e] |] eqn:Hd; [| done].
  intros Hr Hle. rewrite (IH fuel' g' (ws, e)) by (done || lia). done.
Qed.

Lemma drain_fresh_inv (fuel : nat) r :
  drain dataset_text fuel (fresh L) = Some r ->
  r = (all_windows dataset_text L, Exhausted).
Proof.
  intros Hr.
  pose proof (drain_mono fuel (fuel + S (Z.to_nat (n - L))) _ _ Hr) as H1.
  rewrite drain_fresh in H1 by lia. symmetry. apply (inj Some), H1. lia.
Qed.

Lemma length_all_windows :
  Z.of_nat (length (all_windows dataset_text L)) = Z.max 0 (n - L).
Proof.
  unfold all_windows, Py.range. rewrite length_fmap, length_seqZ. lia.
Qed.

Lemma all_windows_lookup (i : nat) (w : pystr) :
  all_windows dataset_text L !! i = Some w <->
  Z.of_nat i < n - L /\ w = window dataset_text L (Z.of_nat i).
Proof.
  unfold all_windows, Py.range. rewrite list_lookup_fmap, fmap_Some.
  setoid_rewrite lookup_seqZ. split.
  - intros (s & [-> Hs] & ->). split; [lia |]. f_equal; lia.
  - intros [Hi ->]. exists (Z.of_nat i). split; [split |]; (lia || done).
Qed.

(** *** Reachable frames *)

Lemma reachable_code (g : generator) :
  reachable dataset_text f g -> gi_code g = f.
Proof.
  induction 1 as [| g ev g' _ IH Hn]; [reflexivity |].
  unfold next in Hn. repeat case_match; by simplify_eq/=.
Qed.

(** One call of [next] keeps the invariant. *)
Lemma next_invariant (g : generator) ev (g' : generator) :
  gi_code g = f -> invariant dataset_text L (gi_frame g) ->
  next dataset_text g = (ev, g') ->
  invariant dataset_text L (gi_frame g').
Proof.
  intros Hc Hinv Hn. destruct (resume (gi_frame g)) as [s |] eqn:Hr.
  - rewrite (next_resume g s Hc Hr) in Hn.
    destruct (Z.ltb_spec s (n - L)); simplify_eq/=; [| done].
    destruct g as [c [| s0 |]]; simplify_eq/=; lia.
  - destruct g as [c [| s0 |]]; simplify_eq/=.
    unfold next in Hn. simplify_eq/=. done.
Qed.

Lemma reachable_invariant (g : generator) :
  reachable dataset_text f g -> invariant dataset_text L (gi_frame g).
Proof.
  induction 1 as [| g ev g' Hreach IH Hn]; [done |].
  eapply next_invariant; eauto using reachable_code.
Qed.

Lemma reachable_suspended (k : nat) :
  Z.of_nat k < n - L ->
  reachable dataset_text f (Generator f (Suspended (Z.of_nat k))).
Proof.
  induction k as [|k IH]; intros Hk.
  - eapply reach_next; [apply reach_fresh |].
    rewrite (next_resume _ 0) by done.
    destruct (Z.ltb_spec 0 (n - L)); [done | lia].
  - eapply reach_next; [apply IH; lia |].
    rewrite (next_resume _ (Z.of_nat k + 1)) by done.
    destruct (Z.ltb_spec (Z.of_nat k + 1) (n - L)); [| lia].
    do 4 f_equal. lia.
Qed.

(** The yields of the generator are the windows at the offsets
    [0 <= s < len(dataset_text) - L], each at its own offset. *)
Lemma yields_at_iff (s : Z) (w : pystr) :
  yields_at dataset_text f s w <->
  0 <= s < n - L /\ w = window dataset_text L s.
Proof.
  split.
  - intros (g & Hreach & Hn).
    pose proof (reachable_invariant _ (reach_next _ _ _ _ _ Hreach Hn)) as Hinv.
    split; [exact Hinv |].
    pose proof (reachable_code _ Hreach) as Hc.
    destruct (resume (gi_frame g)) as [s' |] eqn:Hr.
    + rewrite (next_resume g s' Hc Hr) in Hn.
      destruct (s' <? n - L); simplify_eq/=. done.
    + destruct g as [c [| s0 |]]; simplify_eq/=.
  - intros [Hs ->]. destruct (decide (s = 0)) as [-> | Hne].
    + exists (fresh L). split; [apply reach_fresh |].
      unfold fresh. rewrite (next_resume _ 0) by done.
      destruct (Z.ltb_spec 0 (n - L)); [done | lia].
    + exists (Generator f (Suspended (Z.of_nat (Z.to_nat (s - 1))))). split.
      * apply reachable_suspended. lia.
      * rewrite (next_resume _ s) by (simpl; f_equal; (done || lia)).
        destruct (Z.ltb_spec s (n - L)); [done | lia].
Qed.

(** *** Complete runs *)

Lemma runs_deterministic (g : generator) (ws1 ws2 : list pystr) :
  runs dataset_text g ws1 -> runs dataset_text g ws2 -> ws1 = ws2.
Proof.
  intros H1. revert ws2.
  induction H1 as [g g1 Hn | g w g1 ws Hn _ IH]; intros ws2 H2;
    destruct H2 as [g g2 Hn2 | g w2 g2 ws2 Hn2 H2];
    rewrite Hn in Hn2; simplify_eq; [done |].
  f_equal. apply IH, H2.
Qed.

Lemma drain_runs (fuel : nat) :
  forall (g : generator) (ws : list pystr),
    drain dataset_text fuel g = Some (ws, Exhausted) ->
    runs dataset_text g ws.
Proof.
  induction fuel as [|fuel IH]; intros g ws; [done |]. simpl.
  destruct (next dataset_text g) as [[w | | e] g'] eqn:Hn.
  - destruct (drain dataset_text fuel g') as [[ws' e'] |] eqn:Hd; [| done].
    intros ?; simplify_eq. eapply runs_yield; eauto.
  - intros ?; simplify_eq. eapply runs_stop; eauto.
  - done.
Qed.

End Windowing.

(** ** Windows that lie inside the corpus *)

Section FullWindows.

Variable dataset_text : pystr.
Variable L : Z.
Hypothesis L_nonneg : 0 <= L.

Local Abbreviation n := (Py.len dataset_text).

Lemma window_take_drop (s : Z) :
  0 <= s -> s + L <= n ->
  window dataset_text L s =
  take (Z.to_nat L) (drop (Z.to_nat s) dataset_text).
Proof.
  intros Hs Hn. unfold window. rewrite getslice_inside by lia.
  do 2 f_equal. lia.
Qed.

Lemma window_len (s : Z) :
  0 <= s -> s + L <= n -> Py.len (window dataset_text L s) = L.
Proof.
  intros Hs Hn. unfold window. rewrite getslice_inside_length by lia. lia.
Qed.

Lemma window_substring (s : Z) :
  0 <= s -> s + L <= n -> substring dataset_text (window dataset_text L s).
Proof.
  intros Hs Hn. eexists _, _. apply getslice_substring; lia.
Qed.

(** Dropping the head of one window gives the next one without its last
    character. *)
Lemma window_overlap (s : Z) :
  1 <= L -> 0 <= s -> s + 1 + L <= n ->
  tail (window dataset_text L s) =
  removelast (window dataset_text L (s + 1)).
Proof.
  intros HL Hs Hn.
  rewrite removelast_firstn_len.
  pose proof (window_len (s + 1) ltac:(lia) ltac:(lia)) as Hlen.
  unfold Py.len in Hlen.
  rewrite !window_take_drop by lia.
  rewrite !window_take_drop in Hlen by lia.
  replace (Init.Nat.pred _) with (Z.to_nat L - 1)%nat by lia.
  rewrite take_take, Nat.min_l by lia.
  replace (Z.to_nat (s + 1)) with (Z.to_nat s + 1)%nat by lia.
  rewrite <- drop_drop.
  replace (Z.to_nat L) with (S (Z.to_nat L - 1)) at 1 by lia.
  destruct (drop (Z.to_nat s) dataset_text) as [| c rest]; simpl.
  - by rewrite take_nil.
  - by rewrite drop_0.
Qed.

End FullWindows.

(** ** Properties of the windowing generator *)

(** C1. For every window length [L] with [1 <= L < len(dataset_text)], the
    generator returned by [generate_generator(L)] produces exactly
    [len(dataset_text) - L] windows before it is exhausted. *)
Theorem window_count (dataset_text : pystr) (L : Z) :
  1 <= L < Py.len dataset_text ->
  exists (fuel : nat) (ws : list pystr),
    drain dataset_text fuel (fresh L) = Some (ws, Exhausted) /\
    Z.of_nat (length ws) = Py.len dataset_text - L.
Proof.
  intros HL. exists (S (Z.to_nat (Py.len dataset_text - L))), (all_windows dataset_text L).
  split; [apply drain_fresh; lia |].
  rewrite length_all_windows. lia.
Qed.

Lemma window_count_witness :
  1 <= 2 < Py.len (text "abcde") /\
  exists (fuel : nat) (ws : list pystr),
    drain (text "abcde") fuel (fresh 2) = Some (ws, Exhausted) /\
    Z.of_nat (length ws) = Py.len (text "abcde") - 2.
Proof.
  assert (H : 1 <= 2 < Py.len (text "abcde")) by (unfold Py.len; simpl; lia).
  split; [exact H | exact (window_count (text "abcde") 2 H)].
Defined.

(** C2, as stated, fails: on the corpus ["ab"] with window length 1 the
    offset 1 satisfies [1 + 1 <= len], yet the generator never yields at
    that offset; its only window is ["a"]. *)
Lemma last_window_not_yielded :
  1 <= 1 <= Py.len (text "ab") /\
  0 <= 1 /\ 1 + 1 <= Py.len (text "ab") /\
  (forall w, ~ yields_at (text "ab") (generate_generator (PyInt 1)) 1 w) /\
  drain (text "ab") 2 (fresh 1) = Some ([text "a"], Exhausted).
Proof.
  repeat split; try (unfold Py.len; simpl; lia).
  intros w Hy. apply yields_at_iff in Hy as [Hs _].
  unfold Py.len in Hs. simpl in Hs. lia.
Qed.

(** C2, amended. For every window length [L] with
    [1 <= L <= len(dataset_text)], the generator yields the full window at
    every start offset [s] with [s + L < len(dataset_text)]; it stops on
    reaching the offset [len(dataset_text) - L], whose window is not
    produced. *)
Theorem windows_yielded (dataset_text : pystr) (L : Z) :
  1 <= L <= Py.len dataset_text ->
  (forall s, 0 <= s -> s + L < Py.len dataset_text ->
     yields_at dataset_text (generate_generator (PyInt L)) s
       (window dataset_text L s) /\
     Py.len (window dataset_text L s) = L) /\
  (forall w, ~ yields_at dataset_text (generate_generator (PyInt L))
               (Py.len dataset_text - L) w).
Proof.
  intros HL. split.
  - intros s Hs Hlt. split.
    + apply yields_at_iff. split; [lia | done].
    + apply window_len; lia.
  - intros w Hy. apply yields_at_iff in Hy as [Hs _]. lia.
Qed.

Lemma windows_yielded_witness :
  1 <= 2 <= Py.len (text "abcde") /\
  yields_at (text "abcde") (generate_generator (PyInt 2)) 2 (text "cd").
Proof.
  assert (H : 1 <= 2 <= Py.len (text "abcde")) by (unfold Py.len; simpl; lia).
  split; [exact H |].
  refine (proj1 (proj1 (windows_yielded (text "abcde") 2 H) 2 _ _));
    unfold Py.len; simpl; lia.
Defined.

(** C3. For every window length [L >= 1], every string yielded by the
    generator returned by [generate_generator(L)] has length exactly [L]
    and is a contiguous substring of [dataset_text]. *)
Theorem windows_are_substrings (dataset_text : pystr) (L : Z) :
  1 <= L ->
  (exists (fuel : nat) (ws : list pystr),
     drain dataset_text fuel (fresh L) = Some (ws, Exhausted) /\
     Forall (fun w => Py.len w = L /\ substring dataset_text w) ws) /\
  (forall s w,
     yields_at dataset_text (generate_generator (PyInt L)) s w ->
     Py.len w = L /\ substring dataset_text w).
Proof.
  intros HL.
  assert (Hy : forall s w,
    yields_at dataset_text (generate_generator (PyInt L)) s w ->
    Py.len w = L /\ substring dataset_text w).
  { intros s w [Hs ->]%yields_at_iff.
    split; [apply window_len | apply window_substring]; lia. }
  split; [| exact Hy].
  exists (S (Z.to_nat (Py.len dataset_text - L))), (all_windows dataset_text L).
  split; [apply drain_fresh; lia |].
  apply Forall_lookup. intros i w [Hi ->]%all_windows_lookup.
  apply (Hy (Z.of_nat i)), yields_at_iff. split; [lia | done].
Qed.

Lemma windows_are_substrings_witness :
  1 <= 2 /\
  (Py.len (text "bc") = 2 /\ substring (text "abcde") (text "bc")).
Proof.
  assert (H : 1 <= 2) by lia.
  split; [exact H |].
  refine (proj2 (windows_are_substrings (text "abcde") 2 H) 1 (text "bc") _).
  apply yields_at_iff. split; [unfold Py.len; simpl; lia | reflexivity].
Defined.

(** C4. For every window length [L >= 1], two consecutively yielded
    windows overlap by exactly [L - 1] characters: the start offset advances
    by one, so the earlier window without its first character equals the
    later window without its last character. *)
Theorem consecutive_overlap (dataset_text : pystr) (L : Z) :
  1 <= L ->
  exists (fuel : nat) (ws : list pystr),
    drain dataset_text fuel (fresh L) = Some (ws, Exhausted) /\
    forall (i : nat) (a b : pystr),
      ws !! i = Some a -> ws !! S i = Some b ->
      a = window dataset_text L (Z.of_nat i) /\
      b = window dataset_text L (Z.of_nat i + 1) /\
      tail a = removelast b /\
      Py.len (tail a) = L - 1.
Proof.
  intros HL.
  exists (S (Z.to_nat (Py.len dataset_text - L))), (all_windows dataset_text L).
  split; [apply drain_fresh; lia |].
  intros i a b [Hi ->]%all_windows_lookup [HSi ->]%all_windows_lookup.
  replace (Z.of_nat (S i)) with (Z.of_nat i + 1) in * by lia.
  repeat split.
  - apply window_overlap; lia.
  - pose proof (window_len dataset_text L ltac:(lia) (Z.of_nat i)
                  ltac:(lia) ltac:(lia)) as Hlen.
    unfold Py.len in *.
    destruct (window dataset_text L (Z.of_nat i)); simpl in *; lia.
Qed.

Lemma consecutive_overlap_witness :
  1 <= 3 /\
  exists (fuel : nat) (ws : list pystr),
    drain (text "abcdef") fuel (fresh 3) = Some (ws, Exhausted) /\
    forall (i : nat) (a b : pystr),
      ws !! i = Some a -> ws !! S i = Some b ->
      a = window (text "abcdef") 3 (Z.of_nat i) /\
      b = window (text "abcdef") 3 (Z.of_nat i + 1) /\
      tail a = removelast b /\
      Py.len (tail a) = 3 - 1.
Proof.
  assert (H : 1 <= 3) by lia.
  split; [exact H | exact (consecutive_overlap (text "abcdef") 3 H)].
Defined.

(** C5. The invariant [0 <= start_index < len(dataset_text) - length] holds
    wherever the generator is suspended at its [yield]: every yielded
    window's start offset satisfies it, and each step of the generator
    (which increments [start_index] by one) preserves it. *)
Theorem start_index_invariant (dataset_text : pystr) (L : Z) :
  (forall g,
     reachable dataset_text (generate_generator (PyInt L)) g ->
     invariant dataset_text L (gi_frame g)) /\
  (forall s w,
     yields_at dataset_text (generate_generator (PyInt L)) s w ->
     0 <= s < Py.len dataset_text - L) /\
  (forall g ev g',
     gi_code g = generate_generator (PyInt L) ->
     invariant dataset_text L (gi_frame g) ->
     next dataset_text g = (ev, g') ->
     invariant dataset_text L (gi_frame g')) /\
  (forall s w g',
     next dataset_text (Generator (generate_generator (PyInt L)) (Suspended s))
       = (Yield w, g') ->
     gi_frame g' = Suspended (s + 1)).
Proof.
  split; [| split; [| split]].
  - apply reachable_invariant.
  - intros s w [Hs _]%yields_at_iff. exact Hs.
  - apply next_invariant.
  - intros s w g' Hn.
    rewrite (next_resume dataset_text L _ (s + 1)) in Hn by done.
    destruct (_ <? _); by simplify_eq/=.
Qed.

Lemma start_index_invariant_witness :
  invariant (text "abcde") 2 (Suspended 1) /\
  0 <= 1 < Py.len (text "abcde") - 2 /\
  invariant (text "abcde") 2 (Suspended 2) /\
  Suspended 2 = Suspended (1 + 1).
Proof.
  pose proof (start_index_invariant (text "abcde") 2) as (Hreach & Hyield & Hstep & Hincr).
  assert (Hr : reachable (text "abcde") (generate_generator (PyInt 2))
                 (Generator (generate_generator (PyInt 2)) (Suspended 1))).
  { apply (reachable_suspended (text "abcde") 2 1). unfold Py.len; simpl; lia. }
  assert (Hinv : invariant (text "abcde") 2 (Suspended 1)) by exact (Hreach _ Hr).
  split; [exact Hinv |]. split; [| split].
  - apply (Hyield 1 (text "bc")), yields_at_iff.
    split; [unfold Py.len; simpl; lia | reflexivity].
  - exact (Hstep (Generator (generate_generator (PyInt 2)) (Suspended 1))
             (Yield (text "cd"))
             (Generator (generate_generator (PyInt 2)) (Suspended 2))
             eq_refl Hinv eq_refl).
  - exact (Hincr 1 (text "cd")
             (Generator (generate_generator (PyInt 2)) (Suspended 2)) eq_refl).
Defined.

(** C7, as stated, fails for a negative window length: on the corpus
    ["ab"] with length [-1] the loop bound is [2 - (-1) = 3], so the
    generator yields three windows, more than [len(dataset_text) = 2]. *)
Lemma negative_length_exceeds_corpus :
  drain (text "ab") 4 (fresh (-1))
    = Some ([text "a"; text ""; text ""], Exhausted) /\
  ~ (exists (fuel : nat) (ws : list pystr),
       drain (text "ab") fuel (fresh (-1)) = Some (ws, Exhausted) /\
       Z.of_nat (length ws) <= Py.len (text "ab")).
Proof.
  split; [reflexivity |].
  intros (fuel & ws & Hd & Hlen).
  apply drain_fresh_inv in Hd. simplify_eq.
  rewrite length_all_windows in Hlen. unfold Py.len in Hlen. simpl in Hlen. lia.
Qed.

(** C7, amended. For every integer window length [L] and every finite
    corpus the generator terminates: it is exhausted after exactly
    [max(0, len(dataset_text) - L)] yields, which is at most
    [len(dataset_text)] whenever [L >= 0]. *)
Theorem generator_terminates (dataset_text : pystr) (L : Z) :
  exists (fuel : nat) (ws : list pystr),
    drain dataset_text fuel (fresh L) = Some (ws, Exhausted) /\
    Z.of_nat (length ws) = Z.max 0 (Py.len dataset_text - L) /\
    (0 <= L -> Z.of_nat (length ws) <= Py.len dataset_text).
Proof.
  exists (S (Z.to_nat (Py.len dataset_text - L))), (all_windows dataset_text L).
  split; [apply drain_fresh; lia |].
  rewrite length_all_windows. unfold Py.len. lia.
Qed.

Lemma generator_terminates_witness :
  exists (fuel : nat) (ws : list pystr),
    drain (text "abcde") fuel (fresh 2) = Some (ws, Exhausted) /\
    Z.of_nat (length ws) <= Py.len (text "abcde").
Proof.
  destruct (generator_terminates (text "abcde") 2) as (fuel & ws & Hd & _ & Hle).
  exists fuel, ws. split; [exact Hd | apply Hle; lia].
Defined.

(** C8. The generator has no error branch of its own: for every integer
    [length], also [length <= 0] and [length >= len(dataset_text)], running
    it to exhaustion raises no exception, and when
    [len(dataset_text) - length <= 0] it yields no window. *)
Theorem no_exception (dataset_text : pystr) (L : Z) :
  (exists (fuel : nat) (ws : list pystr),
     drain dataset_text fuel (fresh L) = Some (ws, Exhausted) /\
     (Py.len dataset_text - L <= 0 -> ws = [])) /\
  (forall fuel ws e,
     drain dataset_text fuel (fresh L) <> Some (ws, Failed e)) /\
  (forall g e g',
     reachable dataset_text (generate_generator (PyInt L)) g ->
     next dataset_text g <> (Raised e, g')).
Proof.
  split; [| split].
  - exists (S (Z.to_nat (Py.len dataset_text - L))), (all_windows dataset_text L).
    split; [apply drain_fresh; lia |].
    intros Hle. unfold all_windows, Py.range. by rewrite seqZ_nil by lia.
  - intros fuel ws e Hd. apply drain_fresh_inv in Hd. simplify_eq.
  - intros g e g' Hreach Hn. apply reachable_code in Hreach.
    destruct (resume (gi_frame g)) as [s |] eqn:Hr.
    + rewrite (next_resume dataset_text L g s Hreach Hr) in Hn.
      destruct (_ <? _); simplify_eq.
    + rewrite (next_finished dataset_text L g Hreach) in Hn; [simplify_eq |].
      by destruct (gi_frame g).
Qed.

Lemma no_exception_witness :
  (exists (fuel : nat),
     drain (text "ab") fuel (fresh 7) = Some ([], Exhausted)) /\
  next (text "ab") (fresh 7) <> (Raised TypeError, fresh 7).
Proof.
  pose proof (no_exception (text "ab") 7) as ((fuel & ws & Hd & Hnil) & _ & Hnext).
  split.
  - exists fuel. rewrite Hd, Hnil; [reflexivity |].
    unfold Py.len; simpl; lia.
  - apply Hnext, reach_fresh.
Defined.

(** C9. For every window length [L >= 1], the last character of the corpus
    (index [len(dataset_text) - 1]) lies in no yielded window: a window
    yielded at offset [s] holds the corpus characters at the indices
    [s, s + 1, ...], all of them at most [len(dataset_text) - 2]. *)
Theorem last_character_never_yielded (dataset_text : pystr) (L : Z) :
  1 <= L ->
  forall (s : Z) (w : pystr),
    yields_at dataset_text (generate_generator (PyInt L)) s w ->
    0 <= s /\
    forall (i : nat) (c : ascii),
      w !! i = Some c ->
      dataset_text !! (Z.to_nat s + i)%nat = Some c /\
      s + Z.of_nat i <= Py.len dataset_text - 2.
Proof.
  intros HL s w [Hs ->]%yields_at_iff. split; [lia |].
  intros i c Hw. unfold window in Hw.
  apply getslice_lookup in Hw as [Hc Hlt]; [| lia ..].
  split; [exact Hc | lia].
Qed.

Lemma last_character_never_yielded_witness :
  1 <= 2 /\
  (text "abcde" !! (Z.to_nat 2 + 1)%nat = Some "d"%char /\
   2 + Z.of_nat 1 <= Py.len (text "abcde") - 2).
Proof.
  assert (H : 1 <= 2) by lia.
  split; [exact H |].
  refine (proj2 (last_character_never_yielded (text "abcde") 2 H 2 (text "cd") _)
            1%nat "d"%char _); [| reflexivity].
  apply yields_at_iff. split; [unfold Py.len; simpl; lia | reflexivity].
Defined.

(** ** The curriculum phases *)

(** C6. One dataset is built per curriculum phase: [datasets] has one entry
    for each window length from 1 to [MAX_LENGTH = 32], in increasing
    order, and the k-th dataset (counting from 1) wraps the generator
    function [generate_generator(k)]. *)
Theorem one_dataset_per_phase :
  MAX_LENGTH = 32 /\
  length datasets = 32%nat /\
  source <$> datasets =
    (fun k => generate_generator (PyInt k)) <$> Py.range 1 (MAX_LENGTH + 1) /\
  Py.range 1 (MAX_LENGTH + 1) =
    [1; 2; 3; 4; 5; 6; 7; 8; 9; 10; 11; 12; 13; 14; 15; 16;
     17; 18; 19; 20; 21; 22; 23; 24; 25; 26; 27; 28; 29; 30; 31; 32] /\
  forall k, 1 <= k <= MAX_LENGTH ->
    datasets !! Z.to_nat (k - 1) = Some (phase_dataset k) /\
    source (phase_dataset k) = generate_generator (PyInt k).
Proof.
  split; [reflexivity |]. split; [reflexivity |].
  split; [| split; [reflexivity |]].
  - unfold datasets. rewrite <- list_fmap_compose. reflexivity.
  - intros k Hk. split; [| reflexivity].
    unfold datasets, Py.range. rewrite list_lookup_fmap.
    unfold MAX_LENGTH in *. rewrite lookup_seqZ_lt by lia.
    simpl. do 2 f_equal. lia.
Qed.

Lemma one_dataset_per_phase_witness :
  1 <= 5 <= MAX_LENGTH /\
  datasets !! Z.to_nat (5 - 1) = Some (phase_dataset 5) /\
  source (phase_dataset 5) = generate_generator (PyInt 5).
Proof.
  assert (H : 1 <= 5 <= MAX_LENGTH) by (unfold MAX_LENGTH; lia).
  split; [exact H |].
  exact (proj2 (proj2 (proj2 (proj2 one_dataset_per_phase))) 5 H).
Defined.

(** *** What a run delivers, call by call *)

Lemma runs_drain (dataset_text : pystr) (g : generator) (ws : list pystr) :
  runs dataset_text g ws ->
  exists fuel, drain dataset_text fuel g = Some (ws, Exhausted).
Proof.
  induction 1 as [g g' Hn | g w g' ws Hn _ [fuel IH]].
  - exists 1%nat. simpl. by rewrite Hn.
  - exists (S fuel). simpl. by rewrite Hn, IH.
Qed.

Lemma advance_succ (dataset_text : pystr) (k : nat) :
  forall g,
    advance dataset_text (S k) g =
    (next dataset_text (advance dataset_text k g)).2.
Proof.
  induction k as [| k IH]; intros g; [done |].
  change (advance dataset_text (S (S k)) g)
    with (advance dataset_text (S k) (next dataset_text g).2).
  by rewrite IH.
Qed.

(** After [k] calls the generator stands at the loop test with
    [start_index = k] as long as that many windows exist, and is finished
    after one call more. *)
Lemma advance_fresh (dataset_text : pystr) (L : Z) (k : nat) :
  gi_code (advance dataset_text k (fresh L)) = generate_generator (PyInt L) /\
  (Z.of_nat k <= Z.max 0 (Py.len dataset_text - L) ->
   resume (gi_frame (advance dataset_text k (fresh L))) = Some (Z.of_nat k)) /\
  (Z.max 0 (Py.len dataset_text - L) < Z.of_nat k ->
   gi_frame (advance dataset_text k (fresh L)) = Finished).
Proof.
  induction k as [| k (Hc & Hlow & Hhigh)].
  - split; [done |]. split; [done | lia].
  - rewrite advance_succ.
    destruct (Z_le_gt_dec (Z.of_nat k) (Z.max 0 (Py.len dataset_text - L)))
      as [Hle | Hgt].
    + rewrite (next_resume dataset_text L _ (Z.of_nat k) Hc (Hlow Hle)).
      destruct (Z.ltb_spec (Z.of_nat k) (Py.len dataset_text - L)); simpl.
      * split; [done |]. split; [intros _; f_equal; lia | lia].
      * split; [done |]. split; [lia | done].
    + rewrite (next_finished dataset_text L _ Hc (Hhigh ltac:(lia))). simpl.
      split; [done |]. split; [lia | done].
Qed.

Lemma nth_next_fresh (dataset_text : pystr) (L : Z) (k : nat) :
  nth_next dataset_text k (fresh L) =
  if Z.of_nat k <? Py.len dataset_text - L
  then Yield (window dataset_text L (Z.of_nat k))
  else StopIteration.
Proof.
  unfold nth_next.
  destruct (advance_fresh dataset_text L k) as (Hc & Hlow & Hhigh).
  destruct (Z_le_gt_dec (Z.of_nat k) (Z.max 0 (Py.len dataset_text - L)))
    as [Hle | Hgt].
  - rewrite (next_resume dataset_text L _ (Z.of_nat k) Hc (Hlow Hle)).
    by destruct (_ <? _).
  - rewrite (next_finished dataset_text L _ Hc (Hhigh ltac:(lia))). simpl.
    destruct (Z.ltb_spec (Z.of_nat k) (Py.len dataset_text - L)); [lia | done].
Qed.

(** C10. The windowing stage is deterministic: for a fixed corpus and
    window length [L] what the generator delivers is fixed by the two
    alone.  A complete run yields the windows at the offsets 0, 1, ... in
    that order and nothing else, so any two runs yield the same windows in
    the same order, however far each is driven; the call number [k] of
    [next()] delivers the window at offset [k] while
    [k < len(dataset_text) - L] and [StopIteration] from then on; and in
    every dataset what feeds the shuffle is the generator followed by the
    byte decoding, with no shuffle before it. *)
Theorem windowing_deterministic (dataset_text : pystr) (L : Z) :
  (forall ws,
     runs dataset_text (fresh L) ws <-> ws = all_windows dataset_text L) /\
  (forall ws1 ws2,
     runs dataset_text (fresh L) ws1 ->
     runs dataset_text (fresh L) ws2 ->
     ws1 = ws2 /\
     forall (i : nat) (w : pystr),
       ws1 !! i = Some w -> w = window dataset_text L (Z.of_nat i)) /\
  (forall fuel1 fuel2 r1 r2,
     drain dataset_text fuel1 (fresh L) = Some r1 ->
     drain dataset_text fuel2 (fresh L) = Some r2 ->
     r1 = r2 /\ r1 = (all_windows dataset_text L, Exhausted)) /\
  (forall k : nat,
     nth_next dataset_text k (fresh L) =
     if Z.of_nat k <? Py.len dataset_text - L
     then Yield (window dataset_text L (Z.of_nat k))
     else StopIteration) /\
  Forall (fun d =>
            before_shuffle d =
              Some (ds_map (from_generator (source d) tf_string)
                      (decode_raw tf_int8)) /\
            forall up, before_shuffle d = Some up -> shuffled up = false)
         datasets.
Proof.
  assert (Hruns : forall ws,
    runs dataset_text (fresh L) ws -> ws = all_windows dataset_text L).
  { intros ws [fuel Hd]%runs_drain. apply drain_fresh_inv in Hd. congruence. }
  split; [| split; [| split; [| split]]].
  - intros ws. split; [apply Hruns |]. intros ->.
    apply (drain_runs dataset_text (S (Z.to_nat (Py.len dataset_text - L)))).
    apply drain_fresh. lia.
  - intros ws1 ws2 H1 H2. apply Hruns in H1, H2. subst. split; [done |].
    by intros i w [_ ->]%all_windows_lookup.
  - intros fuel1 fuel2 r1 r2 H1 H2.
    apply drain_fresh_inv in H1, H2. by subst.
  - intros k. apply nth_next_fresh.
  - unfold datasets. apply Forall_fmap, Forall_forall. intros k _. simpl.
    split; [done |]. by intros up [= <-].
Qed.

Lemma windowing_deterministic_witness :
  runs (text "abc") (fresh 1) [text "a"; text "b"] /\
  drain (text "abc") 3 (fresh 1) = Some ([text "a"; text "b"], Exhausted) /\
  drain (text "abc") 9 (fresh 1) = Some ([text "a"; text "b"], Exhausted) /\
  ([text "a"; text "b"] = [text "a"; text "b"] /\
   text "b" = window (text "abc") 1 1) /\
  nth_next (text "abc") 1 (fresh 1) = Yield (text "b") /\
  nth_next (text "abc") 2 (fresh 1) = StopIteration /\
  ([text "a"; text "b"], Exhausted) = (all_windows (text "abc") 1, Exhausted).
Proof.
  pose proof (windowing_deterministic (text "abc") 1)
    as (Hiff & Hruns & Hdrain & Hnth & _).
  assert (H : runs (text "abc") (fresh 1) [text "a"; text "b"])
    by (apply (proj2 (Hiff _)); reflexivity).
  split; [exact H |].
  split; [reflexivity |]. split; [reflexivity |].
  split; [| split; [| split]].
  - destruct (Hruns _ _ H H) as [Heq Hord].
    split; [exact Heq | exact (Hord 1%nat (text "b") eq_refl)].
  - exact (Hnth 1%nat).
  - exact (Hnth 2%nat).
  - exact (proj2 (Hdrain 3%nat 9%nat _ _ eq_refl eq_refl)).
Defined.


(** ** The corpus read from the file *)

Lemma readlines_nil (content : pystr) :
  readlines content = [] -> content = [].
Proof.
  destruct content as [| c rest]; [done |]. simpl.
  destruct (Ascii.eqb c newline); [done |].
  by destruct (readlines rest).
Qed.

Lemma join_cons_char (sep : pystr) (c : ascii) (l : pystr) (ls : list pystr) :
  join sep ((c :: l) :: ls) = c :: join sep (l :: ls).
Proof. simpl. by destruct ls. Qed.

Lemma length_join (sep : pystr) (ls : list pystr) :
  length (join sep ls) =
  (length (concat ls) + length sep * (length ls - 1))%nat.
Proof.
  induction ls as [| l ls IH]; [simpl; lia |].
  destruct ls as [| l' ls].
  - simpl. rewrite app_nil_r. lia.
  - change (join sep (l :: l' :: ls)) with (l ++ sep ++ join sep (l' :: ls)).
    rewrite !length_app, IH. simpl. rewrite !length_app. lia.
Qed.

(** X1. [readlines] loses nothing: the lines, one after the other, are the
    file's content. *)
Theorem readlines_concat (content : pystr) :
  concat (readlines content) = content.
Proof.
  induction content as [| c rest IH]; [done |]. simpl.
  destruct (Ascii.eqb c newline).
  - simpl. by rewrite IH.
  - destruct (readlines rest) as [| l ls] eqn:Hr.
    + apply readlines_nil in Hr. by subst.
    + simpl in *. by rewrite IH.
Qed.

(** X2. Every line [readlines] returns is non-empty and holds a newline
    nowhere but at its end; every line but the last ends with one. *)
Theorem readlines_lines (content : pystr) :
  forall (i : nat) (l : pystr),
    readlines content !! i = Some l ->
    l <> [] /\
    (newline ∉ removelast l) /\
    (S i < length (readlines content) -> last l = Some newline)%nat.
Proof.
  induction content as [| c rest IH]; intros i l; [done |]. simpl.
  destruct (Ascii.eqb_spec c newline) as [-> | Hc].
  - destruct i as [| i]; simpl.
    + intros [= <-]. simpl. split; [done |]. split; [apply not_elem_of_nil | done].
    + intros Hl. destruct (IH i l Hl) as (H1 & H2 & H3).
      split; [done |]. split; [done |]. intros ?. apply H3. lia.
  - destruct (readlines rest) as [| l0 ls] eqn:Hr.
    + destruct i as [| i]; [| done]. intros [= <-]. simpl.
      split; [done |]. split; [apply not_elem_of_nil |]. lia.
    + destruct i as [| i]; simpl.
      * intros [= <-]. destruct (IH 0%nat l0 eq_refl) as (H1 & H2 & H3).
        split; [done |]. destruct l0 as [| c0 l0]; [done |].
        split.
        -- change (newline ∉ c :: removelast (c0 :: l0)).
           rewrite not_elem_of_cons. split; [congruence | exact H2].
        -- intros Hlen. change (last (c0 :: l0) = Some newline).
           apply H3. simpl in *. lia.
      * intros Hl. destruct (IH (S i) l Hl) as (H1 & H2 & H3).
        split; [done |]. split; [done |]. simpl in *. exact H3.
Qed.

Lemma readlines_lines_witness :
  text "ab" <> [] /\
  (newline ∉ removelast (text "ab")) /\
  (1 < length (readlines (text "ab" ++ [newline] ++ text "cd")) ->
   last (text "ab" ++ [newline]) = Some newline)%nat.
Proof.
  destruct (readlines_lines (text "ab" ++ [newline] ++ text "cd") 0
              (text "ab" ++ [newline]) eq_refl) as (H1 & H2 & H3).
  split; [done |]. split; [| exact H3].
  intros Hin. apply H2. simpl. apply list_elem_of_In. simpl.
  apply list_elem_of_In in Hin. simpl in Hin. tauto.
Defined.

(** X3. The corpus is the file's content with every line break that has
    text after it doubled: joining with a newline adds one to each line
    that already ends with its own. *)
Theorem dataset_text_doubles_breaks (content : pystr) :
  dataset_text_of content = double_breaks content.
Proof.
  unfold dataset_text_of.
  induction content as [| c rest IH]; [done |]. simpl readlines. simpl double_breaks.
  destruct (Ascii.eqb_spec c newline) as [-> | Hc].
  - destruct rest as [| c' rest']; [done |].
    destruct (readlines (c' :: rest')) as [| l ls] eqn:Hr.
    + by apply readlines_nil in Hr.
    + rewrite <- IH. reflexivity.
  - destruct (readlines rest) as [| l ls] eqn:Hr.
    + apply readlines_nil in Hr. by subst.
    + rewrite join_cons_char, IH. reflexivity.
Qed.

(** X4. The corpus is longer than the file by one character for every
    line after the first. *)
Theorem dataset_text_length (content : pystr) :
  Py.len (dataset_text_of content) =
  Py.len content + Z.max 0 (Z.of_nat (length (readlines content)) - 1).
Proof.
  unfold Py.len, dataset_text_of.
  rewrite length_join, readlines_concat. simpl. lia.
Qed.

(** ** Further behaviour of the generator *)

Lemma slice_index_nonneg (n i : Z) :
  0 <= n -> 0 <= i -> Py.slice_index n i = Z.min i n.
Proof.
  intros Hn Hi. unfold Py.slice_index. cbv zeta.
  rewrite !(proj2 (Z.ltb_ge i 0)) by lia.
  destruct (Z.ltb_spec n i); lia.
Qed.

Lemma slice_index_from_end (n i : Z) :
  - n <= i < 0 -> Py.slice_index n i = i + n.
Proof.
  intros Hi. unfold Py.slice_index. cbv zeta.
  rewrite (proj2 (Z.ltb_lt i 0)) by lia.
  rewrite (proj2 (Z.ltb_ge (i + n) 0)) by lia.
  destruct (Z.ltb_spec n (i + n)); lia.
Qed.

(** With a length that is not positive, a slice that starts at or after
    the offset [-length] is empty. *)
Lemma window_empty (dataset_text : pystr) (L s : Z) :
  L <= 0 -> - L <= s -> window dataset_text L s = [].
Proof.
  intros HL Hs. unfold window, Py.getslice.
  rewrite !slice_index_nonneg by (unfold Py.len; lia).
  destruct (Z.ltb_spec (Z.min (s + L) (Py.len dataset_text))
              (Z.min s (Py.len dataset_text))); [done |].
  replace (Z.to_nat _) with 0%nat by lia. reflexivity.
Qed.

(** The first characters of the windows at the offsets [s .. s + k - 1]
    are the [k] characters of the corpus from offset [s]. *)
Lemma window_heads (dataset_text : pystr) (L : Z) (k : nat) :
  forall s : Z,
    1 <= L -> 0 <= s -> s + Z.of_nat k + L <= Py.len dataset_text ->
    concat (take 1 <$> (window dataset_text L <$> seqZ s (Z.of_nat k))) =
    take k (drop (Z.to_nat s) dataset_text).
Proof.
  induction k as [| k IH]; intros s HL Hs Hn; [done |].
  rewrite seqZ_cons by lia. rewrite !fmap_cons, concat_cons.
  replace (Z.pred (Z.of_nat (S k))) with (Z.of_nat k) by lia.
  rewrite (IH (Z.succ s)) by lia.
  rewrite window_take_drop by lia.
  rewrite take_take, Nat.min_l by lia.
  replace (Z.to_nat (Z.succ s)) with (Z.to_nat s + 1)%nat by lia.
  rewrite <- drop_drop.
  apply (take_take_drop (drop (Z.to_nat s) dataset_text) 1 k).
Qed.

(** X5. The first [next()] of a new generator, as in the notebook's third
    cell: with [0 <= L < len(dataset_text)] it yields the first [L]
    characters of the corpus; with [L >= len(dataset_text)] it raises
    [StopIteration] at once; with [-len(dataset_text) <= L < 0] it yields
    the corpus without its last [-L] characters. *)
Theorem first_next (dataset_text : pystr) (L : Z) :
  (0 <= L < Py.len dataset_text ->
   next dataset_text (fresh L) =
   (Yield (take (Z.to_nat L) dataset_text),
    Generator (generate_generator (PyInt L)) (Suspended 0))) /\
  (Py.len dataset_text <= L ->
   next dataset_text (fresh L) =
   (StopIteration, Generator (generate_generator (PyInt L)) Finished)) /\
  (- Py.len dataset_text <= L < 0 ->
   next dataset_text (fresh L) =
   (Yield (take (Z.to_nat (Py.len dataset_text + L)) dataset_text),
    Generator (generate_generator (PyInt L)) (Suspended 0))).
Proof.
  unfold fresh. rewrite (next_resume dataset_text L _ 0) by done.
  split; [| split]; intros HL;
    destruct (Z.ltb_spec 0 (Py.len dataset_text - L)); try lia; try done.
  - rewrite (window_take_drop dataset_text L ltac:(lia) 0); [reflexivity | lia | lia].
  - unfold window, Py.getslice.
    rewrite (slice_index_inside _ 0) by (unfold Py.len; lia).
    rewrite (slice_index_from_end _ (0 + L)) by lia.
    destruct (Z.ltb_spec (0 + L + Py.len dataset_text) 0); [lia |].
    do 3 f_equal. lia.
Qed.

Lemma first_next_witness :
  next (text "abcde") (fresh 2) =
    (Yield (text "ab"), Generator (generate_generator (PyInt 2)) (Suspended 0)) /\
  next (text "abcde") (fresh 5) =
    (StopIteration, Generator (generate_generator (PyInt 5)) Finished) /\
  next (text "abcde") (fresh (-2)) =
    (Yield (text "abc"), Generator (generate_generator (PyInt (-2))) (Suspended 0)).
Proof.
  split; [| split].
  - apply (proj1 (first_next (text "abcde") 2)). unfold Py.len; simpl; lia.
  - apply (proj1 (proj2 (first_next (text "abcde") 5))). unfold Py.len; simpl; lia.
  - apply (proj2 (proj2 (first_next (text "abcde") (-2)))). unfold Py.len; simpl; lia.
Defined.

(** X6. A generator that has stopped, by [StopIteration] or by an
    exception, never yields again: every later [next()] raises
    [StopIteration] and leaves it as it is. *)
Theorem stopped_generator_stays_stopped
    (dataset_text : pystr) (g : generator) (ev : event) (g' : generator) :
  next dataset_text g = (ev, g') ->
  (forall w, ev <> Yield w) ->
  next dataset_text g' = (StopIteration, g') /\
  forall fuel, drain dataset_text (S fuel) g' = Some ([], Exhausted).
Proof.
  intros Hn Hev.
  assert (Hfin : gi_frame g' = Finished).
  { unfold next, loop_head in Hn.
    destruct (gi_frame g), (captured_length (gi_code g));
      simpl in Hn; repeat case_match; simplify_eq/=;
      first [done | by destruct (Hev _ eq_refl)]. }
  assert (Hnext : next dataset_text g' = (StopIteration, g')).
  { destruct g' as [c fr]. simpl in Hfin. subst fr. reflexivity. }
  split; [exact Hnext |]. intros fuel. simpl. by rewrite Hnext.
Qed.

Lemma stopped_generator_stays_stopped_witness :
  next (text "ab") (Generator (generate_generator (PyInt 1)) Finished) =
  (StopIteration, Generator (generate_generator (PyInt 1)) Finished).
Proof.
  refine (proj1 (stopped_generator_stays_stopped (text "ab")
            (Generator (generate_generator (PyInt 1)) (Suspended 0))
            StopIteration
            (Generator (generate_generator (PyInt 1)) Finished) eq_refl _)).
  intros w Hw. discriminate Hw.
Defined.

(** X7. When [length] is [None] or a [str], the first [next()] raises
    [TypeError] on [len(dataset_text) - length], before any window is
    yielded. *)
Theorem none_or_str_length_raises (dataset_text : pystr) (length : pyval) :
  length = PyNone \/ (exists s, length = PyStr s) ->
  next dataset_text (generate_text (generate_generator length)) =
    (Raised TypeError, Generator (generate_generator length) Finished) /\
  forall fuel,
    drain dataset_text (S fuel) (generate_text (generate_generator length)) =
    Some ([], Failed TypeError).
Proof.
  intros Hlen.
  assert (Hn : next dataset_text (generate_text (generate_generator length)) =
               (Raised TypeError, Generator (generate_generator length) Finished)).
  { destruct Hlen as [-> | [s ->]]; reflexivity. }
  split; [exact Hn |]. intros fuel. simpl drain. by rewrite Hn.
Qed.

Lemma none_or_str_length_raises_witness :
  drain (text "ab") 1 (generate_text (generate_generator (PyStr (text "3")))) =
  Some ([], Failed TypeError).
Proof.
  refine (proj2 (none_or_str_length_raises (text "ab") (PyStr (text "3")) _) 0%nat).
  right. exists (text "3"). reflexivity.
Defined.

(** X8. With [length <= 0] the generator still runs:
    it yields [len(dataset_text) - length] strings, and every one from the
    offset [-length] on is empty (all of them when [length] is 0). *)
Theorem nonpositive_length (dataset_text : pystr) (L : Z) :
  L <= 0 ->
  exists (fuel : nat) (ws : list pystr),
    drain dataset_text fuel (fresh L) = Some (ws, Exhausted) /\
    Z.of_nat (length ws) = Py.len dataset_text - L /\
    forall (i : nat) (w : pystr),
      ws !! i = Some w -> - L <= Z.of_nat i -> w = [].
Proof.
  intros HL.
  exists (S (Z.to_nat (Py.len dataset_text - L))), (all_windows dataset_text L).
  split; [apply drain_fresh; lia |].
  split; [rewrite length_all_windows; unfold Py.len; lia |].
  intros i w [_ ->]%all_windows_lookup Hi. by apply window_empty.
Qed.

Lemma nonpositive_length_witness :
  0 <= 0 /\
  exists (fuel : nat) (ws : list pystr),
    drain (text "abc") fuel (fresh 0) = Some (ws, Exhausted) /\
    Z.of_nat (length ws) = Py.len (text "abc") - 0 /\
    forall (i : nat) (w : pystr),
      ws !! i = Some w -> - 0 <= Z.of_nat i -> w = [].
Proof.
  assert (H : 0 <= 0) by lia.
  split; [exact H | exact (nonpositive_length (text "abc") 0 H)].
Defined.

(** X9. For [1 <= L < len(dataset_text)] the windows cover the corpus up
    to its last character and no further: the first characters of the
    windows, in order, followed by the rest of the last window, are the
    corpus without its final character. *)
Theorem windows_cover_corpus (dataset_text : pystr) (L : Z) :
  1 <= L < Py.len dataset_text ->
  exists (fuel : nat) (ws : list pystr) (final : pystr),
    drain dataset_text fuel (fresh L) = Some (ws, Exhausted) /\
    ws !! (length ws - 1)%nat = Some final /\
    concat (take 1 <$> ws) ++ drop 1 final =
    take (length dataset_text - 1) dataset_text.
Proof.
  intros HL. set (n := Py.len dataset_text) in *.
  exists (S (Z.to_nat (n - L))), (all_windows dataset_text L),
    (window dataset_text L (n - L - 1)).
  split; [apply drain_fresh; lia |].
  pose proof (length_all_windows dataset_text L) as Hlen. fold n in Hlen.
  split.
  - apply all_windows_lookup. fold n. split; [lia | f_equal; lia].
  - unfold all_windows, Py.range. fold n.
    replace (n - L - 0) with (Z.of_nat (Z.to_nat (n - L))) by lia.
    rewrite window_heads by (fold n; lia). simpl drop at 1.
    rewrite window_take_drop by (fold n; lia).
    replace (Z.to_nat L) with (1 + (Z.to_nat L - 1))%nat by lia.
    rewrite <- take_drop_commute, drop_drop.
    replace (Z.to_nat (n - L - 1) + 1)%nat with (Z.to_nat (n - L)) by lia.
    rewrite take_take_drop. f_equal. unfold n, Py.len in *. lia.
Qed.

Lemma windows_cover_corpus_witness :
  1 <= 2 < Py.len (text "abcde") /\
  exists (fuel : nat) (ws : list pystr) (final : pystr),
    drain (text "abcde") fuel (fresh 2) = Some (ws, Exhausted) /\
    ws !! (length ws - 1)%nat = Some final /\
    concat (take 1 <$> ws) ++ drop 1 final =
    take (length (text "abcde") - 1) (text "abcde").
Proof.
  assert (H : 1 <= 2 < Py.len (text "abcde")) by (unfold Py.len; simpl; lia).
  split; [exact H | exact (windows_cover_corpus (text "abcde") 2 H)].
Defined.

(** ** Choosing the phase and printing the examples *)

Lemma handles_lookup (k : Z) :
  1 <= k <= MAX_LENGTH ->
  handles !! Z.to_nat (k - 1) =
  Some (string_handle (make_one_shot_iterator (phase_dataset k))).
Proof.
  intros Hk. unfold handles, iterators, datasets, Py.range.
  rewrite !list_lookup_fmap. unfold MAX_LENGTH in *.
  rewrite lookup_seqZ_lt by lia. simpl. do 4 f_equal. lia.
Qed.

Lemma length_handles : Z.of_nat (length handles) = MAX_LENGTH.
Proof. reflexivity. Qed.

(** X10. [handles[phase - 1]] follows Python's indexing: for
    [1 <= phase <= MAX_LENGTH] it is the handle of the dataset with window
    length [phase]; for [1 - MAX_LENGTH <= phase <= 0] the index is
    negative and counts from the end, so the dataset with window length
    [phase + MAX_LENGTH] is chosen without any error; any other [phase]
    raises [IndexError]. *)
Theorem fed_handle_phase (phase : Z) :
  (1 <= phase <= MAX_LENGTH ->
   fed_handle phase =
   Some (string_handle (make_one_shot_iterator (phase_dataset phase)))) /\
  (1 - MAX_LENGTH <= phase <= 0 ->
   fed_handle phase =
   Some (string_handle
           (make_one_shot_iterator (phase_dataset (phase + MAX_LENGTH))))) /\
  (phase < 1 - MAX_LENGTH \/ MAX_LENGTH < phase ->
   fed_handle phase = None).
Proof.
  unfold fed_handle, getitem. cbv zeta. rewrite length_handles.
  split; [| split]; intros Hp; unfold MAX_LENGTH in *.
  - rewrite (proj2 (Z.ltb_ge (phase - 1) 0)) by lia.
    rewrite (proj2 (Z.ltb_ge (phase - 1) 0)) by lia.
    rewrite (proj2 (Z.leb_gt 32 (phase - 1))) by lia. simpl.
    apply handles_lookup. unfold MAX_LENGTH. lia.
  - rewrite (proj2 (Z.ltb_lt (phase - 1) 0)) by lia.
    rewrite (proj2 (Z.ltb_ge (phase - 1 + 32) 0)) by lia.
    rewrite (proj2 (Z.leb_gt 32 (phase - 1 + 32))) by lia. simpl.
    replace (phase - 1 + 32) with (phase + 32 - 1) by lia.
    apply handles_lookup. unfold MAX_LENGTH. lia.
  - destruct (Z.ltb_spec (phase - 1) 0).
    + rewrite (proj2 (Z.ltb_lt (phase - 1 + 32) 0)) by lia. reflexivity.
    + rewrite (proj2 (Z.ltb_ge (phase - 1) 0)) by lia.
      rewrite (proj2 (Z.leb_le 32 (phase - 1))) by lia. reflexivity.
Qed.

Lemma fed_handle_phase_witness :
  fed_handle MAX_LENGTH =
    Some (string_handle (make_one_shot_iterator (phase_dataset 32))) /\
  fed_handle 0 =
    Some (string_handle (make_one_shot_iterator (phase_dataset 32))) /\
  fed_handle 33 = None.
Proof.
  split; [| split].
  - apply (proj1 (fed_handle_phase MAX_LENGTH)). unfold MAX_LENGTH. lia.
  - apply (proj1 (proj2 (fed_handle_phase 0))). unfold MAX_LENGTH. lia.
  - apply (proj2 (proj2 (fed_handle_phase 33))). unfold MAX_LENGTH. lia.
Defined.

Lemma int8_of_byte_range (c : ascii) : -128 <= int8_of_byte c <= 127.
Proof.
  unfold int8_of_byte. cbv zeta. pose proof (nat_ascii_bounded c).
  destruct (Z.ltb_spec (Z.of_nat (nat_of_ascii c)) 128); lia.
Qed.

Lemma chr_int8_ascii (c : ascii) :
  (nat_of_ascii c < 128)%nat -> chr (int8_of_byte c) = Some c.
Proof.
  intros Hc. unfold chr, int8_of_byte. cbv zeta.
  rewrite (proj2 (Z.ltb_lt (Z.of_nat (nat_of_ascii c)) 128)) by lia.
  rewrite (proj2 (Z.leb_le 0 (Z.of_nat (nat_of_ascii c)))) by lia.
  rewrite (proj2 (Z.ltb_lt (Z.of_nat (nat_of_ascii c)) 256)) by lia.
  simpl. by rewrite Nat2Z.id, ascii_nat_embedding.
Qed.

Lemma chr_int8_high (c : ascii) :
  (128 <= nat_of_ascii c)%nat -> chr (int8_of_byte c) = None.
Proof.
  intros Hc. unfold chr, int8_of_byte. cbv zeta.
  pose proof (nat_ascii_bounded c).
  rewrite (proj2 (Z.ltb_ge (Z.of_nat (nat_of_ascii c)) 128)) by lia.
  rewrite (proj2 (Z.leb_gt 0 (Z.of_nat (nat_of_ascii c) - 256))) by lia.
  reflexivity.
Qed.

(** X11. Every window yielded for a length [L >= 1] is decoded by
    [tf.decode_raw(t, tf.int8)] to exactly [L] numbers, each between -128
    and 127. *)
Theorem decoded_window (dataset_text : pystr) (L s : Z) (w : pystr) :
  1 <= L ->
  yields_at dataset_text (generate_generator (PyInt L)) s w ->
  Z.of_nat (length (decode_raw_int8 w)) = L /\
  Forall (fun z => -128 <= z <= 127) (decode_raw_int8 w).
Proof.
  intros HL [Hs ->]%yields_at_iff. unfold decode_raw_int8. split.
  - rewrite length_fmap. apply (window_len dataset_text L); lia.
  - apply Forall_fmap, Forall_forall. intros c _. apply int8_of_byte_range.
Qed.

Lemma decoded_window_witness :
  1 <= 2 /\
  Z.of_nat (length (decode_raw_int8 (text "bc"))) = 2 /\
  Forall (fun z => -128 <= z <= 127) (decode_raw_int8 (text "bc")).
Proof.
  assert (H : 1 <= 2) by lia.
  split; [exact H |].
  apply (decoded_window (text "abcde") 2 1 (text "bc") H).
  apply yields_at_iff. split; [unfold Py.len; simpl; lia | reflexivity].
Defined.

(** X12. Printing an example gives back the window when all its characters
    are ASCII: [''.join(map(chr, ...))] undoes [tf.decode_raw(t, tf.int8)]
    on bytes below 128. *)
Theorem chr_undoes_decode_raw (w : pystr) :
  Forall (fun c => (nat_of_ascii c < 128)%nat) w ->
  join_chr (decode_raw_int8 w) = Some w.
Proof.
  unfold join_chr, decode_raw_int8.
  induction 1 as [| c w Hc _ IH]; [done |].
  rewrite fmap_cons. simpl. rewrite (chr_int8_ascii c Hc). simpl.
  by rewrite IH.
Qed.

Lemma chr_undoes_decode_raw_witness :
  join_chr (decode_raw_int8 (text "ab")) = Some (text "ab").
Proof.
  apply (chr_undoes_decode_raw (text "ab")).
  repeat constructor; simpl; lia.
Defined.

(** X13. A window that holds a byte of 128 or more cannot be printed: the
    byte is decoded to a negative number, on which [chr] raises
    [ValueError]. *)
Theorem chr_fails_on_high_byte (w : pystr) :
  Exists (fun c => (128 <= nat_of_ascii c)%nat) w ->
  join_chr (decode_raw_int8 w) = None /\
  Exists (fun z => z < 0) (decode_raw_int8 w).
Proof.
  intros Hw. unfold join_chr, decode_raw_int8. split.
  - apply mapM_None_2, Exists_fmap.
    eapply Exists_impl; [exact Hw |]. intros c Hc. by apply chr_int8_high.
  - apply Exists_fmap. eapply Exists_impl; [exact Hw |].
    intros c Hc. cbv beta in Hc. change (int8_of_byte c < 0).
    unfold int8_of_byte. cbv zeta. pose proof (nat_ascii_bounded c).
    rewrite (proj2 (Z.ltb_ge (Z.of_nat (nat_of_ascii c)) 128)) by lia. lia.
Qed.

Lemma chr_fails_on_high_byte_witness :
  join_chr (decode_raw_int8 [ascii_of_nat 97; ascii_of_nat 200]) = None /\
  Exists (fun z => z < 0) (decode_raw_int8 [ascii_of_nat 97; ascii_of_nat 200]).
Proof.
  apply (chr_fails_on_high_byte [ascii_of_nat 97; ascii_of_nat 200]).
  apply Exists_cons_tl, Exists_cons_hd.
  rewrite nat_ascii_embedding by lia. lia.
Defined.
